(** * Bus_Tracker: the trust-scoring policy of [BusTruthAgent]

    A shallow embedding of [src/bus_tracker.py]: the method
    [BusTruthAgent.evaluate_location] (lines 14-30), the severity
    thresholding the dashboard applies to its confidence (lines 78-83), the
    face check [detect_driver_presence] (lines 33-38) and the dashboard
    script around them (lines 40-104).

    Python is dynamically typed, so the arguments of [evaluate_location] are
    modelled as Python values ([pyval]) and the three operators the method
    applies to them ([==], [and], [>=] / [>]) carry their Python meaning,
    including the [TypeError] an ordering comparison raises on operands that
    are not ordered with an [int]. *)

From Stdlib Require Import ZArith NArith Bool List String Lia.
From Stdlib Require Import DecimalString.
Import ListNotations.
Local Open Scope string_scope.
Local Open Scope Z_scope.

(** ** Python values and operators *)

Module Py.

(** The builtin values the method can be handed.  ([float] is left out:
    the dashboard never passes one.) *)
Inductive pyval : Type :=
| PyNone : pyval
| PyBool : bool -> pyval
| PyInt : Z -> pyval
| PyStr : string -> pyval.

(** Exceptions.  [TypeError] is what Python raises for an unsupported
    comparison; [InvalidInput] is the rejection signal the specification
    speaks of (nothing in the source raises it). *)
Inductive exn : Type :=
| TypeError : exn
| InvalidInput : exn.

(** The error monad in which a method body runs. *)
Inductive result (A : Type) : Type :=
| Return : A -> result A
| Raise : exn -> result A.
Arguments Return {A} _.
Arguments Raise {A} _.

Definition bind {A B : Type} (m : result A) (k : A -> result B) : result B :=
  match m with
  | Return a => k a
  | Raise e => Raise e
  end.

(** [bool(v)]: the truth value an [if] or an [and] takes of [v]. *)
Definition truthy (v : pyval) : bool :=
  match v with
  | PyNone => false
  | PyBool b => b
  | PyInt z => negb (z =? 0)
  | PyStr s => negb (s =? "")%string
  end.

(** [bool] is a subclass of [int]: [True] is 1 and [False] is 0. *)
Definition as_int (v : pyval) : option Z :=
  match v with
  | PyBool b => Some (if b then 1 else 0)
  | PyInt z => Some z
  | _ => None
  end.

(** [a == b] on builtin values: numbers compare by value, strings by
    content, and values of unrelated types are simply unequal. *)
Definition py_eq (a b : pyval) : bool :=
  match a, b with
  | PyNone, PyNone => true
  | PyStr s, PyStr t => (s =? t)%string
  | _, _ =>
      match as_int a, as_int b with
      | Some x, Some y => x =? y
      | _, _ => false
      end
  end.

(** [a and b]: [a] itself when it is falsy, otherwise [b]. *)
Definition py_and (a b : pyval) : pyval :=
  if truthy a then b else a.

(** [a >= b]: defined between numbers and between strings, a [TypeError]
    otherwise. *)
Definition py_ge (a b : pyval) : result bool :=
  match a, b with
  | PyStr s, PyStr t => Return (String.leb t s)
  | _, _ =>
      match as_int a, as_int b with
      | Some x, Some y => Return (y <=? x)
      | _, _ => Raise TypeError
      end
  end.

(** [a > b], likewise. *)
Definition py_gt (a b : pyval) : result bool :=
  match a, b with
  | PyStr s, PyStr t => Return (String.ltb t s)
  | _, _ =>
      match as_int a, as_int b with
      | Some x, Some y => Return (y <? x)
      | _, _ => Raise TypeError
      end
  end.

End Py.
Import Py.

Notation "x <- m ;; k" := (bind m (fun x => k))
  (at level 61, m at next level, right associativity).

(** ** The reasoning agent *)

(** An instance of [BusTruthAgent].  The class defines no [__init__]; an
    instance carries only its attribute dictionary, which the method never
    reads. *)
Record BusTruthAgent : Type := mkAgent { agent_dict : list (string * pyval) }.

(** The tuple [conf, status, msg] the method returns. *)
Definition verdict : Type := (Z * string * string)%type.

(** [BusTruthAgent.evaluate_location], lines 14-30. *)
Definition evaluate_location (self : BusTruthAgent)
    (hw_gps driver_face_active driver_mobile mesh_passengers : pyval)
    : result verdict :=
  if py_eq hw_gps (PyStr "OFFLINE") then
    if truthy (py_and driver_face_active
                 (PyBool (py_eq driver_mobile (PyStr "ON_ROUTE")))) then
      ge3 <- py_ge mesh_passengers (PyInt 3) ;;
      if (ge3 : bool) then
        Return (98, "VERIFIED BY RIDER MESH",
                "SUCCESS: High-confidence location via passenger & driver mesh.")
      else
        gt0 <- py_gt mesh_passengers (PyInt 0) ;;
        if (gt0 : bool) then
          Return (75, "PROBABLE LOCATION",
                  "CAUTION: Hardware down. Location estimated via driver and few riders.")
        else
          Return (45, "STATUS UNCERTAIN",
                  "WARNING: Hardware down. Only driver mobile detected.")
    else
      Return (5, "GHOST BUS ALERT",
              "ERROR: No reliable signal from bus, driver, or mesh. Likely out of service.")
  else
    Return (100, "HARDWARE LIVE", "Bus is actively broadcasting GPS signal.").

(** ** Severity tiers of the dashboard *)

(** The three renderings of lines 78-83: [st.success], [st.warning] and
    [st.error]. *)
Inductive Tier : Type := POSITIVE | CAUTION | ERROR.

(** The [if conf > 80 / elif conf > 40 / else] cascade of lines 78-83. *)
Definition tierOf (conf : Z) : Tier :=
  if conf >? 80 then POSITIVE
  else if conf >? 40 then CAUTION
  else ERROR.

(** ** The declared input domain

    The dashboard feeds the method from two select boxes, a slider and the
    face detector (lines 47-49 and 63-66): [hw_status] is "LIVE" or
    "OFFLINE", [driver_mob] is "ON_ROUTE" or "UNKNOWN", [face_active] is a
    [bool] and [passenger_mesh] a non-negative [int]. *)

Inductive HardwareGps : Type := LIVE | OFFLINE.
Inductive DriverMobileStatus : Type := ON_ROUTE | UNKNOWN.

Record SignalSnapshot : Type := mkSnapshot {
  hardwareGps : HardwareGps;
  driverFaceVerified : bool;
  driverMobileStatus : DriverMobileStatus;
  passengerMeshCount : N
}.

Definition hw_text (g : HardwareGps) : string :=
  match g with LIVE => "LIVE" | OFFLINE => "OFFLINE" end.

Definition mobile_text (d : DriverMobileStatus) : string :=
  match d with ON_ROUTE => "ON_ROUTE" | UNKNOWN => "UNKNOWN" end.

(** The call of line 73 on a snapshot of the declared domain. *)
Definition evaluate (self : BusTruthAgent) (s : SignalSnapshot) : result verdict :=
  evaluate_location self
    (PyStr (hw_text (hardwareGps s)))
    (PyBool (driverFaceVerified s))
    (PyStr (mobile_text (driverMobileStatus s)))
    (PyInt (Z.of_N (passengerMeshCount s))).

(** The five status labels, with the text and the message the method's five
    [return] statements attach to each. *)
Inductive StatusLabel : Type :=
| HARDWARE_LIVE
| VERIFIED_BY_RIDER_MESH
| PROBABLE_LOCATION
| STATUS_UNCERTAIN
| GHOST_BUS_ALERT.

Definition label_text (l : StatusLabel) : string :=
  match l with
  | HARDWARE_LIVE => "HARDWARE LIVE"
  | VERIFIED_BY_RIDER_MESH => "VERIFIED BY RIDER MESH"
  | PROBABLE_LOCATION => "PROBABLE LOCATION"
  | STATUS_UNCERTAIN => "STATUS UNCERTAIN"
  | GHOST_BUS_ALERT => "GHOST BUS ALERT"
  end.

Definition label_message (l : StatusLabel) : string :=
  match l with
  | HARDWARE_LIVE => "Bus is actively broadcasting GPS signal."
  | VERIFIED_BY_RIDER_MESH =>
      "SUCCESS: High-confidence location via passenger & driver mesh."
  | PROBABLE_LOCATION =>
      "CAUTION: Hardware down. Location estimated via driver and few riders."
  | STATUS_UNCERTAIN => "WARNING: Hardware down. Only driver mobile detected."
  | GHOST_BUS_ALERT =>
      "ERROR: No reliable signal from bus, driver, or mesh. Likely out of service."
  end.

Definition label_confidence (l : StatusLabel) : Z :=
  match l with
  | HARDWARE_LIVE => 100
  | VERIFIED_BY_RIDER_MESH => 98
  | PROBABLE_LOCATION => 75
  | STATUS_UNCERTAIN => 45
  | GHOST_BUS_ALERT => 5
  end.

(** The tuple returned for a label. *)
Definition verdict_of (l : StatusLabel) : verdict :=
  (label_confidence l, label_text l, label_message l).

(** The confidence of an outcome, when there is one. *)
Definition confidence_of (r : result verdict) : option Z :=
  match r with
  | Return (c, _, _) => Some c
  | Raise _ => None
  end.

(** ** Validation, as a pipeline in front of the policy

    What it would mean for the method to reject or normalise its arguments
    before deciding: some [validate] maps the raw arguments to a snapshot of
    the declared domain, on which the policy then runs, or to nothing, in
    which case [InvalidInput] is signalled. *)

Definition validator : Type :=
  pyval -> pyval -> pyval -> pyval -> option SignalSnapshot.

Definition validated_evaluate (self : BusTruthAgent) (validate : validator)
    (hw_gps driver_face_active driver_mobile mesh_passengers : pyval)
    : result verdict :=
  match validate hw_gps driver_face_active driver_mobile mesh_passengers with
  | Some s => evaluate self s
  | None => Raise InvalidInput
  end.

Definition runs_on_validated_inputs_only (self : BusTruthAgent) : Prop :=
  exists validate : validator,
    forall hw_gps driver_face_active driver_mobile mesh_passengers,
      evaluate_location self hw_gps driver_face_active driver_mobile mesh_passengers
      = validated_evaluate self validate
          hw_gps driver_face_active driver_mobile mesh_passengers.

(** How the method in fact reads arguments of the declared types that lie
    outside the declared values: every test in it is a comparison with one
    constant, so anything but "OFFLINE" counts as live, anything but
    "ON_ROUTE" as not on route, and a negative count as no rider. *)
Definition read_as (hw : string) (face : bool) (mob : string) (n : Z) : SignalSnapshot :=
  {| hardwareGps := if (hw =? "OFFLINE")%string then OFFLINE else LIVE;
     driverFaceVerified := face;
     driverMobileStatus := if (mob =? "ON_ROUTE")%string then ON_ROUTE else UNKNOWN;
     passengerMeshCount := Z.to_N n |}.

(** An agent as line 60 builds it. *)
Definition agent : BusTruthAgent := mkAgent [].

(** ** The dashboard script

    Lines 40-104 run top to bottom on every interaction.  The input widgets
    (two select boxes, the slider, the camera and the button) are the
    record [Widgets]; what the script renders is the list of [ui] elements
    it emits, in order; an exception ends the run with what was rendered so
    far. *)

(** The output elements of Streamlit the script calls. *)
Inductive ui : Type :=
| st_set_page_config (page_title layout : string)
| st_title (body : string)
| st_markdown (body : string)
| st_sidebar_header (body : string)
| st_sidebar_subheader (body : string)
| st_header (body : string)
| st_success (body : string)
| st_warning (body : string)
| st_error (body : string)
| st_metric (label value delta : string)
| st_map (lat lon : list Z)
| st_write (body : string)
| st_json (body : list (string * string))
| st_spinner (text : string)
| time_sleep (secs : Z)
| st_info (body : string)
| st_caption (body : string).

(** How a run can end early: with an exception of the agent, or with one
    raised inside a call into PIL or OpenCV, known by the name of its
    class. *)
Inductive failure : Type :=
| PythonError (e : exn)
| LibraryError (name : string).

(** How a call, or a run, ends. *)
Inductive ending (A : Type) : Type :=
| Completed (a : A)
| Aborted (f : failure).
Arguments Completed {A} _.
Arguments Aborted {A} _.

(** A run of the script: it appends to what is rendered and completes with a
    value or aborts, keeping what was rendered so far. *)
Definition script (A : Type) : Type := list ui -> ending A * list ui.

Definition ret {A : Type} (a : A) : script A := fun log => (Completed a, log).

(** A call of the agent inside the script. *)
Definition lift {A : Type} (r : result A) : script A :=
  fun log =>
    (match r with
     | Return a => Completed a
     | Raise e => Aborted (PythonError e)
     end, log).

(** A call into a library inside the script. *)
Definition call {A : Type} (r : ending A) : script A := fun log => (r, log).

Definition emit (e : ui) : script unit := fun log => (Completed tt, (log ++ [e])%list).

Definition bind_script {A B : Type} (m : script A) (k : A -> script B) : script B :=
  fun log =>
    match m log with
    | (Completed a, log') => k a log'
    | (Aborted f, log') => (Aborted f, log')
    end.

Notation "x <~ m ;; k" := (bind_script m (fun x => k))
  (at level 61, m at next level, right associativity).
Notation "m >> k" := (bind_script m (fun _ => k))
  (at level 61, right associativity).

(** [str(n)] of an [int], as an f-string interpolates it. *)
Definition py_str_int (n : Z) : string := NilZero.string_of_int (Z.to_int n).

(** [d[key]] read back from a dictionary literal. *)
Fixpoint dict_get (key : string) (d : list (string * string)) : option string :=
  match d with
  | [] => None
  | (k, v) :: rest => if (k =? key)%string then Some v else dict_get key rest
  end.

(** A face rectangle [(x, y, w, h)] of the cascade classifier. *)
Definition Rect : Type := (Z * Z * Z * Z)%type.

Section Dashboard.

(** The camera side is external.  [UploadedFile] is what the camera widget
    hands over and [Image] what [Image.open] makes of it (line 65), unless it
    raises.  [detectMultiScale] stands for lines 34-37 as a whole: loading
    the pre-trained cascade, converting the frame to grey scale and running
    the detection with scale factor 1.1 and 4 neighbours; it ends with the
    face rectangles found or with the first exception one of these four
    library calls raises. *)
Variable UploadedFile : Type.
Variable Image : Type.
Variable Image_open : UploadedFile -> ending Image.
Variable detectMultiScale : Image -> ending (list Rect).

(** [detect_driver_presence], lines 33-38: [len(faces) > 0] of the faces
    found, if the library calls return. *)
Definition detect_driver_presence (image : Image) : ending bool :=
  match detectMultiScale image with
  | Completed faces => Completed (Z.of_nat (List.length faces) >? 0)
  | Aborted f => Aborted f
  end.

(** The values of the input widgets of lines 47-52 and 98. *)
Record Widgets : Type := mkWidgets {
  hw_status : string;
  driver_mob : string;
  passenger_mesh : Z;
  driver_img : option UploadedFile;
  vibe_check : bool
}.

(** Lines 63-70: the face check on the camera frame, if there is one. *)
Definition face_check (w : Widgets) : script bool :=
  match driver_img w with
  | Some file =>
      img <~ call (Image_open file) ;;
      face_active <~ call (detect_driver_presence img) ;;
      (if (face_active : bool)
       then emit (st_success "✅ Driver Identity Verified (Face Detection Active)")
       else emit (st_warning "⚠️ Driver Not Detected in Frame")) >>
      ret face_active
  | None => ret false
  end.

(** Lines 76-83: the metric and the box that show a verdict. *)
Definition show_verdict (conf : Z) (status msg : string) : script unit :=
  emit (st_metric "Agent Confidence Score"
          (py_str_int conf ++ "%")
          (py_str_int (conf - 50) ++ "% if hardware fails")) >>
  if conf >? 80 then emit (st_success ("**" ++ status ++ "**: " ++ msg))
  else if conf >? 40 then emit (st_warning ("**" ++ status ++ "**: " ++ msg))
  else emit (st_error ("**" ++ status ++ "**: " ++ msg)).

(** Lines 91-96: the dictionary of the data-source health panel. *)
Definition source_health (w : Widgets) (face_active : bool) : list (string * string) :=
  [ ("Hardware_GPS", if (hw_status w =? "LIVE")%string then "Healthy" else "FAILED");
    ("Driver_Mobile", if (driver_mob w =? "ON_ROUTE")%string then "Active" else "Stale");
    ("Passenger_Mesh", py_str_int (passenger_mesh w) ++ " Devices Active");
    ("Driver_Vision", if face_active then "Verified" else "Incomplete") ].

(** The whole script, lines 40-104. *)
Definition dashboard (w : Widgets) : script unit :=
  emit (st_set_page_config "TransitMesh Truth-Seeker" "wide") >>
  emit (st_title "🚌 TransitMesh: End-to-End Agentic Bus Tracking") >>
  emit (st_markdown "---") >>
  emit (st_sidebar_header "📡 Live Sensor Inputs") >>
  emit (st_sidebar_subheader "📸 Driver Cabin Feed") >>
  emit (st_header "🗺️ Real-Time Map & Verification") >>
  let agent := mkAgent [] in
  face_active <~ face_check w ;;
  v <~ lift (evaluate_location agent (PyStr (hw_status w)) (PyBool face_active)
               (PyStr (driver_mob w)) (PyInt (passenger_mesh w))) ;;
  let '(conf, status, msg) := v in
  show_verdict conf status msg >>
  emit (st_map [404406] [-799959]) >>
  emit (st_header "📊 Multi-Modal Integrity") >>
  emit (st_write "**Data Source Health:**") >>
  emit (st_json (source_health w face_active)) >>
  (if vibe_check w then
     emit (st_spinner "Pinging active passenger devices...") >>
     emit (time_sleep 1) >>
     emit (st_info ("Mesh Check: " ++ py_str_int (passenger_mesh w)
                    ++ " devices confirmed at 40.4406, -79.9959."))
   else ret tt) >>
  emit (st_markdown "---") >>
  emit (st_caption "Product Note: This prototype demonstrates the Reasoning Agent's ability to maintain tracking when primary hardware fails.").

(** What one run renders, and how it ends. *)
Definition run (w : Widgets) : ending unit * list ui := dashboard w [].

End Dashboard.

Arguments mkWidgets {UploadedFile} _ _ _ _ _.
Arguments hw_status {UploadedFile} _.
Arguments driver_mob {UploadedFile} _.
Arguments passenger_mesh {UploadedFile} _.
Arguments driver_img {UploadedFile} _.
Arguments vibe_check {UploadedFile} _.
Arguments detect_driver_presence {Image} _ _.
Arguments face_check {UploadedFile Image} _ _ _.
Arguments source_health {UploadedFile} _ _.
Arguments dashboard {UploadedFile Image} _ _ _.
Arguments run {UploadedFile Image} _ _ _.

(** ** Vocabulary for the properties of the policy *)

(** The five tests the method applies to its arguments: [hw_gps ==
    "OFFLINE"], the truth value of [driver_face_active], [driver_mobile ==
    "ON_ROUTE"], [mesh_passengers >= 3] and [mesh_passengers > 0], each with
    its result or the exception it raises. *)
Definition observations (hw face mob mesh : pyval)
    : bool * bool * bool * result bool * result bool :=
  (py_eq hw (PyStr "OFFLINE"), truthy face, py_eq mob (PyStr "ON_ROUTE"),
   py_ge mesh (PyInt 3), py_gt mesh (PyInt 0)).

(** [s'] carries at least the evidence of [s]: each signal is as good or
    better. *)
Definition evidence_le (s s' : SignalSnapshot) : Prop :=
  (hardwareGps s = LIVE -> hardwareGps s' = LIVE)
  /\ (driverFaceVerified s = true -> driverFaceVerified s' = true)
  /\ (driverMobileStatus s = ON_ROUTE -> driverMobileStatus s' = ON_ROUTE)
  /\ (passengerMeshCount s <= passengerMeshCount s')%N.

(** The severity order of the boxes: error below caution below positive. *)
Definition tier_rank (t : Tier) : Z :=
  match t with ERROR => 0 | CAUTION => 1 | POSITIVE => 2 end.

(** The Streamlit box of a tier. *)
Definition box (t : Tier) (body : string) : ui :=
  match t with
  | POSITIVE => st_success body
  | CAUTION => st_warning body
  | ERROR => st_error body
  end.

(** The label of a snapshot in closed form; [evaluate_label_of] below shows
    that the method computes it. *)
Definition label_of (s : SignalSnapshot) : StatusLabel :=
  match hardwareGps s with
  | LIVE => HARDWARE_LIVE
  | OFFLINE =>
      match driverFaceVerified s, driverMobileStatus s with
      | true, ON_ROUTE =>
          if (3 <=? passengerMeshCount s)%N then VERIFIED_BY_RIDER_MESH
          else if (0 <? passengerMeshCount s)%N then PROBABLE_LOCATION
          else STATUS_UNCERTAIN
      | _, _ => GHOST_BUS_ALERT
      end
  end.

(** How lines 63-66 end: with the value of [face_active], or with the
    exception of [Image.open] or of the detection. *)
Definition camera_ending {UploadedFile Image : Type}
    (Image_open : UploadedFile -> ending Image)
    (detectMultiScale : Image -> ending (list Rect))
    (w : Widgets UploadedFile) : ending bool :=
  match driver_img w with
  | Some file =>
      match Image_open file with
      | Completed img => detect_driver_presence detectMultiScale img
      | Aborted f => Aborted f
      end
  | None => Completed false
  end.

(** The value of [face_active] when line 73 is reached (and [false] when it
    is not). *)
Definition face_active {UploadedFile Image : Type}
    (Image_open : UploadedFile -> ending Image)
    (detectMultiScale : Image -> ending (list Rect))
    (w : Widgets UploadedFile) : bool :=
  match camera_ending Image_open detectMultiScale w with
  | Completed b => b
  | Aborted _ => false
  end.

(** What is rendered before the face check, lines 41-58. *)
Definition page_head : list ui :=
  [ st_set_page_config "TransitMesh Truth-Seeker" "wide";
    st_title "🚌 TransitMesh: End-to-End Agentic Bus Tracking";
    st_markdown "---";
    st_sidebar_header "📡 Live Sensor Inputs";
    st_sidebar_subheader "📸 Driver Cabin Feed";
    st_header "🗺️ Real-Time Map & Verification" ].

(** The two banners of the face check. *)
Definition driver_verified_banner : ui :=
  st_success "✅ Driver Identity Verified (Face Detection Active)".

Definition driver_missing_banner : ui :=
  st_warning "⚠️ Driver Not Detected in Frame".

(** ** Facts about the Python operators *)

Lemma py_eq_str (v : pyval) (s : string) :
  py_eq v (PyStr s) = true <-> v = PyStr s.
Proof.
  destruct v as [ | b | z | t]; simpl; try (split; [discriminate | congruence]).
  rewrite String.eqb_eq. split; congruence.
Qed.

Lemma py_eq_str_neq (v : pyval) (s : string) :
  v <> PyStr s -> py_eq v (PyStr s) = false.
Proof.
  intros Hneq. destruct (py_eq v (PyStr s)) eqn:E; [ | reflexivity].
  apply py_eq_str in E. contradiction.
Qed.

Lemma py_and_falsy (a b : pyval) : truthy a = false -> truthy (py_and a b) = false.
Proof. intros Ha. unfold py_and. rewrite Ha. exact Ha. Qed.

Lemma py_ge_int (n k : Z) : py_ge (PyInt n) (PyInt k) = Return (k <=? n).
Proof. reflexivity. Qed.

Lemma py_gt_int (n k : Z) : py_gt (PyInt n) (PyInt k) = Return (k <? n).
Proof. reflexivity. Qed.

(** ** The branches of the policy *)

(** The method with the hardware offline and the driver's prime evidence
    present, as a function of an integer rider count. *)
Lemma mesh_branch (self : BusTruthAgent) (n : Z) :
  evaluate_location self (PyStr "OFFLINE") (PyBool true) (PyStr "ON_ROUTE") (PyInt n)
  = Return (if 3 <=? n then verdict_of VERIFIED_BY_RIDER_MESH
            else if 0 <? n then verdict_of PROBABLE_LOCATION
            else verdict_of STATUS_UNCERTAIN).
Proof.
  unfold evaluate_location. simpl py_eq. simpl truthy. cbv iota.
  rewrite py_ge_int, py_gt_int. simpl bind.
  destruct (3 <=? n); [reflexivity | ].
  destruct (0 <? n); reflexivity.
Qed.

Lemma live_branch (self : BusTruthAgent) (hw face mob mesh : pyval) :
  hw <> PyStr "OFFLINE" ->
  evaluate_location self hw face mob mesh = Return (verdict_of HARDWARE_LIVE).
Proof.
  intros Hhw. unfold evaluate_location.
  rewrite (py_eq_str_neq _ _ Hhw). reflexivity.
Qed.

Lemma ghost_branch (self : BusTruthAgent) (face mob mesh : pyval) :
  truthy face = false \/ mob <> PyStr "ON_ROUTE" ->
  evaluate_location self (PyStr "OFFLINE") face mob mesh
  = Return (verdict_of GHOST_BUS_ALERT).
Proof.
  intros H. unfold evaluate_location. simpl py_eq. cbv iota.
  assert (Hc : truthy (py_and face (PyBool (py_eq mob (PyStr "ON_ROUTE")))) = false).
  { destruct H as [Hf | Hm].
    - apply py_and_falsy, Hf.
    - unfold py_and. rewrite (py_eq_str_neq _ _ Hm).
      destruct (truthy face) eqn:Ef; [reflexivity | exact Ef]. }
  rewrite Hc. reflexivity.
Qed.

(** Every snapshot of the declared domain gets the verdict of one of the
    five labels. *)
Lemma evaluate_label (self : BusTruthAgent) (s : SignalSnapshot) :
  exists l : StatusLabel, evaluate self s = Return (verdict_of l).
Proof.
  destruct s as [g f d n]. unfold evaluate. simpl.
  destruct g.
  - exists HARDWARE_LIVE. apply live_branch. discriminate.
  - destruct f, d.
    + rewrite mesh_branch.
      destruct (3 <=? Z.of_N n); [eexists; reflexivity | ].
      destruct (0 <? Z.of_N n); eexists; reflexivity.
    + exists GHOST_BUS_ALERT. apply ghost_branch. right. discriminate.
    + exists GHOST_BUS_ALERT. apply ghost_branch. left. reflexivity.
    + exists GHOST_BUS_ALERT. apply ghost_branch. left. reflexivity.
Qed.

(** Whatever the arguments, a verdict that is returned is the verdict of one
    of the five labels. *)
Lemma returned_label (self : BusTruthAgent) (hw face mob mesh : pyval) (v : verdict) :
  evaluate_location self hw face mob mesh = Return v ->
  exists l : StatusLabel, v = verdict_of l.
Proof.
  unfold evaluate_location.
  destruct (py_eq hw (PyStr "OFFLINE")).
  - destruct (truthy _).
    + destruct (py_ge mesh (PyInt 3)) as [[ | ] | e]; simpl.
      * intros [= <-]. now exists VERIFIED_BY_RIDER_MESH.
      * destruct (py_gt mesh (PyInt 0)) as [[ | ] | e]; simpl.
        -- intros [= <-]. now exists PROBABLE_LOCATION.
        -- intros [= <-]. now exists STATUS_UNCERTAIN.
        -- discriminate.
      * discriminate.
    + intros [= <-]. now exists GHOST_BUS_ALERT.
  - intros [= <-]. now exists HARDWARE_LIVE.
Qed.

Lemma label_text_inj (l l' : StatusLabel) : label_text l = label_text l' -> l = l'.
Proof. destruct l, l'; simpl; intros H; (reflexivity || discriminate H). Qed.

Lemma label_confidence_inj (l l' : StatusLabel) :
  label_confidence l = label_confidence l' -> l = l'.
Proof. destruct l, l'; simpl; intros H; (reflexivity || discriminate H). Qed.

(** ** The policy, branch by branch *)

(** C1.  With the onboard GPS reporting "LIVE" the method returns confidence
    100, the label HARDWARE LIVE and the message "Bus is actively
    broadcasting GPS signal.", whatever the driver's face check, the driver's
    mobile status and the rider count are. *)
Theorem hardware_live_preempts :
  forall (self : BusTruthAgent) (face mob mesh : pyval),
    evaluate_location self (PyStr (hw_text LIVE)) face mob mesh
    = Return (100, label_text HARDWARE_LIVE,
              "Bus is actively broadcasting GPS signal.").
Proof.
  intros self face mob mesh.
  rewrite live_branch; [reflexivity | discriminate].
Qed.

(** C2.  With the onboard GPS "OFFLINE", a driver whose face is not verified
    or whose mobile is not "ON_ROUTE" gets confidence 5 and the label GHOST
    BUS ALERT for every rider count: the count is not consulted. *)
Theorem ghost_bus_whatever_the_mesh :
  forall (self : BusTruthAgent) (face mob mesh : pyval),
    truthy face = false \/ mob <> PyStr (mobile_text ON_ROUTE) ->
    evaluate_location self (PyStr (hw_text OFFLINE)) face mob mesh
    = Return (5, label_text GHOST_BUS_ALERT, label_message GHOST_BUS_ALERT).
Proof.
  intros self face mob mesh H.
  exact (ghost_branch self face mob mesh H).
Qed.

Lemma ghost_bus_whatever_the_mesh_witness :
  (truthy (PyBool false) = false \/ PyStr "ON_ROUTE" <> PyStr (mobile_text ON_ROUTE))
  /\ evaluate_location agent (PyStr "OFFLINE") (PyBool false) (PyStr "ON_ROUTE") (PyInt 20)
     = Return (5, "GHOST BUS ALERT",
               "ERROR: No reliable signal from bus, driver, or mesh. Likely out of service.").
Proof.
  split.
  - left. reflexivity.
  - apply (ghost_bus_whatever_the_mesh agent (PyBool false) (PyStr "ON_ROUTE") (PyInt 20)).
    left. reflexivity.
Defined.

(** C3.  With the onboard GPS "OFFLINE", the face verified and the mobile
    "ON_ROUTE", the verdict over the rider counts [n >= 0] has three
    plateaus, 45 STATUS UNCERTAIN at 0, 75 PROBABLE LOCATION at 1 and 2,
    98 VERIFIED BY RIDER MESH from 3 on, and the confidence never decreases
    when the count grows. *)
Theorem mesh_confidence_steps :
  forall (self : BusTruthAgent) (n : Z),
    0 <= n ->
    let run := fun k : Z =>
      evaluate_location self (PyStr (hw_text OFFLINE)) (PyBool true)
        (PyStr (mobile_text ON_ROUTE)) (PyInt k) in
    (n = 0 -> run n = Return (45, label_text STATUS_UNCERTAIN,
                              label_message STATUS_UNCERTAIN))
    /\ (1 <= n <= 2 -> run n = Return (75, label_text PROBABLE_LOCATION,
                                       label_message PROBABLE_LOCATION))
    /\ (3 <= n -> run n = Return (98, label_text VERIFIED_BY_RIDER_MESH,
                                  label_message VERIFIED_BY_RIDER_MESH))
    /\ (forall m : Z, n <= m ->
          exists c c' : Z,
            confidence_of (run n) = Some c /\ confidence_of (run m) = Some c'
            /\ c <= c').
Proof.
  intros self n Hn run. subst run. cbv beta. simpl hw_text. simpl mobile_text.
  repeat split.
  - intros ->. reflexivity.
  - intros H12. rewrite mesh_branch.
    destruct (3 <=? n) eqn:E3; [apply Z.leb_le in E3; lia | ].
    destruct (0 <? n) eqn:E0; [reflexivity | apply Z.ltb_ge in E0; lia].
  - intros H3. rewrite mesh_branch.
    destruct (3 <=? n) eqn:E3; [reflexivity | apply Z.leb_gt in E3; lia].
  - intros m Hm. rewrite !mesh_branch.
    destruct (3 <=? n) eqn:En3; destruct (3 <=? m) eqn:Em3;
      destruct (0 <? n) eqn:En0; destruct (0 <? m) eqn:Em0;
      simpl; do 2 eexists; (repeat split; try reflexivity);
      try (apply Z.leb_le in En3); try (apply Z.leb_gt in En3);
      try (apply Z.leb_le in Em3); try (apply Z.leb_gt in Em3);
      try (apply Z.ltb_lt in En0); try (apply Z.ltb_ge in En0);
      try (apply Z.ltb_lt in Em0); try (apply Z.ltb_ge in Em0);
      lia.
Qed.

Lemma mesh_confidence_steps_witness :
  0 <= 2
  /\ evaluate_location agent (PyStr "OFFLINE") (PyBool true) (PyStr "ON_ROUTE") (PyInt 2)
     = Return (75, "PROBABLE LOCATION",
               "CAUTION: Hardware down. Location estimated via driver and few riders.").
Proof.
  split; [lia | ].
  apply (mesh_confidence_steps agent 2); lia.
Defined.

(** C4.  The method is total on the declared domain: for every GPS status,
    face flag, mobile status and non-negative rider count it returns a
    verdict, with a confidence between 0 and 100, and raises nothing. *)
Theorem evaluate_total :
  forall (self : BusTruthAgent) (s : SignalSnapshot),
    exists (c : Z) (label message : string),
      evaluate self s = Return (c, label, message) /\ 0 <= c <= 100.
Proof.
  intros self s. destruct (evaluate_label self s) as [l Hl].
  exists (label_confidence l), (label_text l), (label_message l).
  split; [exact Hl | destruct l; simpl; lia].
Qed.

(** C5.  The dashboard's thresholds cut the confidences 0..100 into three
    contiguous ranges that meet at 40 and 80: above 80 is POSITIVE, above 40
    and up to 80 is CAUTION, up to 40 is ERROR; every confidence has one
    tier and the ranges neither overlap nor leave a gap. *)
Theorem tierOf_partition :
  forall c : Z,
    0 <= c <= 100 ->
    (tierOf c = POSITIVE <-> 80 < c)
    /\ (tierOf c = CAUTION <-> 40 < c <= 80)
    /\ (tierOf c = ERROR <-> c <= 40)
    /\ tierOf 40 = ERROR /\ tierOf 41 = CAUTION
    /\ tierOf 80 = CAUTION /\ tierOf 81 = POSITIVE.
Proof.
  intros c _. unfold tierOf.
  destruct (Z.gtb_spec c 80) as [H80 | H80];
    destruct (Z.gtb_spec c 40) as [H40 | H40];
    (repeat split; intros; try reflexivity; try discriminate; try lia).
Qed.

Lemma tierOf_partition_witness :
  0 <= 80 <= 100 /\ (tierOf 80 = CAUTION <-> 40 < 80 <= 80).
Proof.
  split; [lia | ].
  apply (tierOf_partition 80). lia.
Defined.

(** ** Validation *)

(** Arguments of the declared types are read as a snapshot of the declared
    domain by the comparisons themselves. *)
Lemma typed_arguments_read_as (self : BusTruthAgent)
    (hw : string) (face : bool) (mob : string) (n : Z) :
  evaluate_location self (PyStr hw) (PyBool face) (PyStr mob) (PyInt n)
  = evaluate self (read_as hw face mob n).
Proof.
  unfold evaluate, read_as. simpl.
  destruct (hw =? "OFFLINE")%string eqn:Ehw.
  - apply String.eqb_eq in Ehw. subst hw. simpl hw_text.
    destruct (mob =? "ON_ROUTE")%string eqn:Emob.
    + apply String.eqb_eq in Emob. subst mob. simpl mobile_text.
      destruct face.
      * rewrite !mesh_branch.
        destruct (Z.le_gt_cases 0 n) as [Hn | Hn].
        -- rewrite Z2N.id by exact Hn. reflexivity.
        -- replace (Z.of_N (Z.to_N n)) with 0 by (destruct n; simpl; lia).
           destruct (3 <=? n) eqn:E3; [apply Z.leb_le in E3; lia | ].
           destruct (0 <? n) eqn:E0; [apply Z.ltb_lt in E0; lia | ].
           reflexivity.
      * rewrite !ghost_branch; [reflexivity | left; reflexivity ..].
    + apply String.eqb_neq in Emob.
      rewrite !ghost_branch; [reflexivity | right; discriminate | right; congruence].
  - apply String.eqb_neq in Ehw.
    rewrite !live_branch; [reflexivity | discriminate | congruence].
Qed.

Lemma never_invalid_input (self : BusTruthAgent) (hw face mob mesh : pyval) :
  evaluate_location self hw face mob mesh <> Raise InvalidInput.
Proof.
  unfold evaluate_location.
  destruct (py_eq hw (PyStr "OFFLINE")); [ | discriminate].
  destruct (truthy _); [ | discriminate].
  destruct mesh as [ | b | z | t]; simpl; try discriminate.
  - destruct b; simpl; discriminate.
  - destruct (3 <=? z); simpl; [discriminate | ].
    destruct (0 <? z); discriminate.
Qed.

(** C6, as the specification states it, fails: invalid arguments are neither
    rejected with [InvalidInput] nor normalised ahead of the policy.  A rider
    count that is not a number reaches the comparison [mesh_passengers >= 3]
    and makes it raise [TypeError] from inside the policy, the same count is
    accepted unseen when the GPS is live, and a negative count or an
    unrecognised GPS status runs through the policy and gets a verdict; so
    no validation step in front of the policy accounts for the method. *)
Lemma validation_is_absent :
  evaluate_location agent (PyStr "OFFLINE") (PyBool true) (PyStr "ON_ROUTE") (PyStr "three")
  = Raise TypeError
  /\ evaluate_location agent (PyStr "LIVE") (PyBool true) (PyStr "ON_ROUTE") (PyStr "three")
     = Return (100, "HARDWARE LIVE", "Bus is actively broadcasting GPS signal.")
  /\ evaluate_location agent (PyStr "OFFLINE") (PyBool true) (PyStr "ON_ROUTE") (PyInt (-4))
     = Return (45, "STATUS UNCERTAIN",
               "WARNING: Hardware down. Only driver mobile detected.")
  /\ evaluate_location agent (PyStr "PARKED") (PyBool false) (PyStr "UNKNOWN") (PyInt 0)
     = Return (100, "HARDWARE LIVE", "Bus is actively broadcasting GPS signal.")
  /\ ~ runs_on_validated_inputs_only agent.
Proof.
  repeat split; try reflexivity.
  intros [validate Hv].
  specialize (Hv (PyStr "OFFLINE") (PyBool true) (PyStr "ON_ROUTE") (PyStr "three")).
  unfold validated_evaluate in Hv.
  destruct (validate _ _ _ _) as [s | ].
  - destruct (evaluate_label agent s) as [l Hl]. rewrite Hl in Hv.
    discriminate Hv.
  - discriminate Hv.
Qed.

(** C6, amended.  The method validates nothing and never signals
    [InvalidInput]; the policy runs on the raw arguments.  On arguments of
    the declared types it always decides as it does on the snapshot
    [read_as] gives: a GPS status other than "OFFLINE" counts as live, a
    mobile status other than "ON_ROUTE" as unknown, a negative rider count as
    zero.  A rider count that is not a number raises [TypeError] once the
    policy consults it. *)
Theorem policy_runs_on_raw_arguments :
  forall self : BusTruthAgent,
    (forall hw face mob mesh : pyval,
        evaluate_location self hw face mob mesh <> Raise InvalidInput)
    /\ (forall (hw : string) (face : bool) (mob : string) (n : Z),
          evaluate_location self (PyStr hw) (PyBool face) (PyStr mob) (PyInt n)
          = evaluate self (read_as hw face mob n))
    /\ (forall mesh : pyval,
          as_int mesh = None ->
          evaluate_location self (PyStr "OFFLINE") (PyBool true) (PyStr "ON_ROUTE") mesh
          = Raise TypeError).
Proof.
  intros self. split; [ | split].
  - apply never_invalid_input.
  - apply typed_arguments_read_as.
  - intros mesh Hm. unfold evaluate_location. simpl py_eq. simpl truthy. cbv iota.
    destruct mesh as [ | b | z | t]; simpl in Hm; try discriminate Hm; reflexivity.
Qed.

Lemma policy_runs_on_raw_arguments_witness :
  as_int (PyStr "three") = None
  /\ evaluate_location agent (PyStr "OFFLINE") (PyBool true) (PyStr "ON_ROUTE") (PyStr "three")
     = Raise TypeError.
Proof.
  split; [reflexivity | ].
  apply (policy_runs_on_raw_arguments agent). reflexivity.
Defined.

(** ** Properties of the verdicts *)

(** C8.  The message is fixed by the status label: two calls that return
    the same label return the same message, and every returned pair of label
    and message is one of the five rows of [label_text] and
    [label_message]. *)
Theorem message_fixed_per_label :
  forall (self self' : BusTruthAgent)
         (hw face mob mesh hw' face' mob' mesh' : pyval)
         (c c' : Z) (label message message' : string),
    evaluate_location self hw face mob mesh = Return (c, label, message) ->
    evaluate_location self' hw' face' mob' mesh' = Return (c', label, message') ->
    message = message'
    /\ exists l : StatusLabel, label = label_text l /\ message = label_message l.
Proof.
  intros self self' hw face mob mesh hw' face' mob' mesh' c c' label message message' H H'.
  apply returned_label in H. apply returned_label in H'.
  destruct H as [l Hl]. destruct H' as [l' Hl'].
  unfold verdict_of in Hl, Hl'.
  injection Hl as Hc Hlab Hmsg. injection Hl' as Hc' Hlab' Hmsg'.
  assert (l = l') by (apply label_text_inj; congruence). subst l'.
  split; [congruence | ]. exists l. split; assumption.
Qed.

Lemma message_fixed_per_label_witness :
  evaluate_location agent (PyStr "OFFLINE") (PyBool false) (PyStr "ON_ROUTE") (PyInt 20)
  = Return (5, "GHOST BUS ALERT",
            "ERROR: No reliable signal from bus, driver, or mesh. Likely out of service.")
  /\ evaluate_location agent (PyStr "OFFLINE") (PyBool true) (PyStr "UNKNOWN") (PyInt 10)
     = Return (5, "GHOST BUS ALERT",
               "ERROR: No reliable signal from bus, driver, or mesh. Likely out of service.")
  /\ exists l : StatusLabel,
       "GHOST BUS ALERT" = label_text l
       /\ "ERROR: No reliable signal from bus, driver, or mesh. Likely out of service."
          = label_message l.
Proof.
  split; [reflexivity | split; [reflexivity | ]].
  apply (message_fixed_per_label agent agent
           (PyStr "OFFLINE") (PyBool false) (PyStr "ON_ROUTE") (PyInt 20)
           (PyStr "OFFLINE") (PyBool true) (PyStr "UNKNOWN") (PyInt 10)
           5 5 "GHOST BUS ALERT"
           "ERROR: No reliable signal from bus, driver, or mesh. Likely out of service."
           "ERROR: No reliable signal from bus, driver, or mesh. Likely out of service.");
    reflexivity.
Defined.

(** C9.  On the declared domain the confidence is one of 5, 45, 75, 98 and
    100, each of the five occurs, and the confidence determines the label
    and the message. *)
Theorem confidence_determines_verdict :
  forall self : BusTruthAgent,
    (forall s : SignalSnapshot,
        exists (c : Z) (label message : string),
          evaluate self s = Return (c, label, message)
          /\ In c [5; 45; 75; 98; 100])
    /\ (forall c : Z, In c [5; 45; 75; 98; 100] ->
          exists (s : SignalSnapshot) (label message : string),
            evaluate self s = Return (c, label, message))
    /\ (forall (s s' : SignalSnapshot) (c : Z) (label message label' message' : string),
          evaluate self s = Return (c, label, message) ->
          evaluate self s' = Return (c, label', message') ->
          label = label' /\ message = message').
Proof.
  intros self. split; [ | split].
  - intros s. destruct (evaluate_label self s) as [l Hl].
    exists (label_confidence l), (label_text l), (label_message l).
    split; [exact Hl | ]. destruct l; simpl; tauto.
  - intros c Hc. simpl in Hc.
    destruct Hc as [<- | [<- | [<- | [<- | [<- | []]]]]].
    + exists (mkSnapshot OFFLINE false ON_ROUTE 20). do 2 eexists. reflexivity.
    + exists (mkSnapshot OFFLINE true ON_ROUTE 0). do 2 eexists. reflexivity.
    + exists (mkSnapshot OFFLINE true ON_ROUTE 2). do 2 eexists. reflexivity.
    + exists (mkSnapshot OFFLINE true ON_ROUTE 5). do 2 eexists. reflexivity.
    + exists (mkSnapshot LIVE false UNKNOWN 0). do 2 eexists. reflexivity.
  - intros s s' c label message label' message' H H'.
    unfold evaluate in H, H'.
    apply returned_label in H. apply returned_label in H'.
    destruct H as [l Hl]. destruct H' as [l' Hl'].
    unfold verdict_of in Hl, Hl'.
    injection Hl as Hc Hlab Hmsg. injection Hl' as Hc' Hlab' Hmsg'.
    assert (l = l') by (apply label_confidence_inj; congruence). subst l'.
    split; congruence.
Qed.

Lemma confidence_determines_verdict_witness :
  In 75 [5; 45; 75; 98; 100]
  /\ exists (s : SignalSnapshot) (label message : string),
       evaluate agent s = Return (75, label, message).
Proof.
  split; [simpl; tauto | ].
  apply (confidence_determines_verdict agent). simpl. tauto.
Defined.

(** C10.  Any GPS status other than the exact string "OFFLINE", a value the
    dashboard never offers included, gets the hardware-live verdict,
    confidence 100 and label HARDWARE LIVE, whatever the other three
    arguments are: the status is not checked against the two declared
    values, and an unknown one is trusted in full. *)
Theorem unknown_gps_is_trusted :
  forall (self : BusTruthAgent) (hw face mob mesh : pyval),
    hw <> PyStr "OFFLINE" ->
    evaluate_location self hw face mob mesh
    = Return (100, "HARDWARE LIVE", "Bus is actively broadcasting GPS signal.").
Proof.
  intros self hw face mob mesh Hhw.
  rewrite (live_branch self hw face mob mesh Hhw). reflexivity.
Qed.

Lemma unknown_gps_is_trusted_witness :
  PyStr "offline" <> PyStr "OFFLINE"
  /\ evaluate_location agent (PyStr "offline") PyNone (PyInt 7) (PyStr "many")
     = Return (100, "HARDWARE LIVE", "Bus is actively broadcasting GPS signal.").
Proof.
  split; [discriminate | ].
  apply (unknown_gps_is_trusted agent (PyStr "offline") PyNone (PyInt 7) (PyStr "many")).
  discriminate.
Defined.

(** ** The scenarios of the specification, run on the method *)

Example scenario_live :
  evaluate agent (mkSnapshot LIVE false UNKNOWN 0) = Return (verdict_of HARDWARE_LIVE).
Proof. reflexivity. Qed.

Example scenario_mesh_of_five :
  evaluate agent (mkSnapshot OFFLINE true ON_ROUTE 5)
  = Return (verdict_of VERIFIED_BY_RIDER_MESH).
Proof. reflexivity. Qed.

Example scenario_mesh_of_two :
  evaluate agent (mkSnapshot OFFLINE true ON_ROUTE 2)
  = Return (verdict_of PROBABLE_LOCATION).
Proof. reflexivity. Qed.

Example scenario_no_mesh :
  evaluate agent (mkSnapshot OFFLINE true ON_ROUTE 0)
  = Return (verdict_of STATUS_UNCERTAIN).
Proof. reflexivity. Qed.

Example scenario_unverified_driver :
  evaluate agent (mkSnapshot OFFLINE false ON_ROUTE 20)
  = Return (verdict_of GHOST_BUS_ALERT).
Proof. reflexivity. Qed.

Example scenario_stale_mobile :
  evaluate agent (mkSnapshot OFFLINE true UNKNOWN 10)
  = Return (verdict_of GHOST_BUS_ALERT).
Proof. reflexivity. Qed.

(** The dashboard's tier for each of the five confidences. *)
Example tiers_of_the_verdicts :
  map tierOf [5; 45; 75; 98; 100] = [ERROR; CAUTION; CAUTION; POSITIVE; POSITIVE].
Proof. reflexivity. Qed.

(** ** What the method observes of its arguments *)

Lemma truthy_py_and (a : pyval) (b : bool) :
  truthy (py_and a (PyBool b)) = truthy a && b.
Proof. unfold py_and. destruct (truthy a) eqn:Ea; [reflexivity | exact Ea]. Qed.

Lemma py_ge_as_int (v : pyval) (k : Z) :
  py_ge v (PyInt k)
  = match as_int v with Some x => Return (k <=? x) | None => Raise TypeError end.
Proof. destruct v; reflexivity. Qed.

Lemma py_gt_as_int (v : pyval) (k : Z) :
  py_gt v (PyInt k)
  = match as_int v with Some x => Return (k <? x) | None => Raise TypeError end.
Proof. destruct v; reflexivity. Qed.

(** The method in closed form, over the values of the model. *)
Lemma evaluate_location_observed (self : BusTruthAgent) (hw face mob mesh : pyval) :
  evaluate_location self hw face mob mesh
  = if py_eq hw (PyStr "OFFLINE") then
      if truthy face && py_eq mob (PyStr "ON_ROUTE") then
        match as_int mesh with
        | Some n =>
            Return (if 3 <=? n then verdict_of VERIFIED_BY_RIDER_MESH
                    else if 0 <? n then verdict_of PROBABLE_LOCATION
                    else verdict_of STATUS_UNCERTAIN)
        | None => Raise TypeError
        end
      else Return (verdict_of GHOST_BUS_ALERT)
    else Return (verdict_of HARDWARE_LIVE).
Proof.
  unfold evaluate_location.
  rewrite truthy_py_and, py_ge_as_int, py_gt_as_int.
  destruct (py_eq hw (PyStr "OFFLINE")); [ | reflexivity].
  destruct (truthy face && py_eq mob (PyStr "ON_ROUTE")); [ | reflexivity].
  destruct (as_int mesh) as [n | ]; [ | reflexivity].
  simpl. destruct (3 <=? n); [reflexivity | ].
  destruct (0 <? n); reflexivity.
Qed.

(** X1.  The method reads its arguments through five tests only:
    [hw_gps == "OFFLINE"], the truth value of [driver_face_active],
    [driver_mobile == "ON_ROUTE"], [mesh_passengers >= 3] and
    [mesh_passengers > 0].  Two calls on which the five tests come out the
    same, a raised exception included, get the same outcome; so every truthy
    face flag works like [True], and a rider count [True] works like 1. *)
Theorem outcome_from_observations :
  forall (self self' : BusTruthAgent) (hw face mob mesh hw' face' mob' mesh' : pyval),
    observations hw face mob mesh = observations hw' face' mob' mesh' ->
    evaluate_location self hw face mob mesh
    = evaluate_location self' hw' face' mob' mesh'.
Proof.
  intros self self' hw face mob mesh hw' face' mob' mesh' H.
  unfold observations in H. injection H as Hhw Hface Hmob Hge Hgt.
  unfold evaluate_location.
  rewrite !truthy_py_and, Hhw, Hface, Hmob, Hge, Hgt. reflexivity.
Qed.

Lemma outcome_from_observations_witness :
  observations (PyStr "OFFLINE") (PyInt 7) (PyStr "ON_ROUTE") (PyBool true)
  = observations (PyStr "OFFLINE") (PyStr "yes") (PyStr "ON_ROUTE") (PyInt 1)
  /\ evaluate_location agent (PyStr "OFFLINE") (PyInt 7) (PyStr "ON_ROUTE") (PyBool true)
     = evaluate_location agent (PyStr "OFFLINE") (PyStr "yes") (PyStr "ON_ROUTE") (PyInt 1).
Proof.
  split; [reflexivity | ].
  apply (outcome_from_observations agent agent
           (PyStr "OFFLINE") (PyInt 7) (PyStr "ON_ROUTE") (PyBool true)
           (PyStr "OFFLINE") (PyStr "yes") (PyStr "ON_ROUTE") (PyInt 1)).
  reflexivity.
Defined.

(** X2.  The method raises in one situation only: the GPS is "OFFLINE", the
    face flag is truthy, the mobile status is "ON_ROUTE" and the rider count
    is not a number; the exception is then [TypeError].  In every other
    situation it returns a verdict. *)
Theorem raises_exactly_when :
  forall (self : BusTruthAgent) (hw face mob mesh : pyval) (e : exn),
    evaluate_location self hw face mob mesh = Raise e
    <-> (e = TypeError /\ hw = PyStr "OFFLINE" /\ truthy face = true
         /\ mob = PyStr "ON_ROUTE" /\ as_int mesh = None).
Proof.
  intros self hw face mob mesh e. rewrite evaluate_location_observed. split.
  - destruct (py_eq hw (PyStr "OFFLINE")) eqn:Ehw; [ | discriminate].
    destruct (truthy face) eqn:Ef; simpl; [ | discriminate].
    destruct (py_eq mob (PyStr "ON_ROUTE")) eqn:Em; [ | discriminate].
    destruct (as_int mesh) as [n | ]; [discriminate | ].
    intros [= <-]. apply py_eq_str in Ehw. apply py_eq_str in Em.
    repeat split; assumption.
  - intros (-> & -> & Hf & -> & Hm). rewrite Hf, Hm. reflexivity.
Qed.

Lemma raises_exactly_when_witness :
  evaluate_location agent (PyStr "OFFLINE") (PyBool true) (PyStr "ON_ROUTE") PyNone
  = Raise TypeError.
Proof.
  apply (raises_exactly_when agent (PyStr "OFFLINE") (PyBool true) (PyStr "ON_ROUTE")
           PyNone TypeError).
  repeat split; reflexivity.
Defined.

(** ** The policy in closed form, and its order *)

Lemma evaluate_label_of (self : BusTruthAgent) (s : SignalSnapshot) :
  evaluate self s = Return (verdict_of (label_of s)).
Proof.
  destruct s as [g f d n]. unfold evaluate, label_of. simpl.
  rewrite evaluate_location_observed.
  destruct g, f, d; try reflexivity. simpl.
  replace (3 <=? Z.of_N n) with (3 <=? n)%N
    by (destruct (N.leb_spec 3 n); destruct (Z.leb_spec 3 (Z.of_N n)); lia).
  replace (0 <? Z.of_N n) with (0 <? n)%N
    by (destruct (N.ltb_spec 0 n); destruct (Z.ltb_spec 0 (Z.of_N n)); lia).
  destruct (3 <=? n)%N; [reflexivity | ].
  destruct (0 <? n)%N; reflexivity.
Qed.

Lemma typed_arguments_label (self : BusTruthAgent)
    (hw : string) (face : bool) (mob : string) (n : Z) :
  evaluate_location self (PyStr hw) (PyBool face) (PyStr mob) (PyInt n)
  = Return (verdict_of (label_of (read_as hw face mob n))).
Proof. rewrite typed_arguments_read_as. apply evaluate_label_of. Qed.

Lemma tierOf_monotone (c c' : Z) :
  c <= c' -> tier_rank (tierOf c) <= tier_rank (tierOf c').
Proof.
  intros H. unfold tierOf.
  destruct (Z.gtb_spec c 80); destruct (Z.gtb_spec c' 80);
    destruct (Z.gtb_spec c 40); destruct (Z.gtb_spec c' 40); simpl; lia.
Qed.

(** X3.  More evidence never lowers the trust: when every signal of a
    snapshot is as good or better than in another (GPS live rather than
    offline, face verified, mobile on route, at least as many riders), its
    confidence is at least as high, and the box the dashboard shows for it is
    at least as favourable. *)
Theorem more_evidence_never_lowers_trust :
  forall (self : BusTruthAgent) (s s' : SignalSnapshot),
    evidence_le s s' ->
    exists c c' : Z,
      confidence_of (evaluate self s) = Some c
      /\ confidence_of (evaluate self s') = Some c'
      /\ c <= c'
      /\ tier_rank (tierOf c) <= tier_rank (tierOf c').
Proof.
  intros self s s' (Hg & Hf & Hd & Hn).
  rewrite !evaluate_label_of.
  exists (label_confidence (label_of s)), (label_confidence (label_of s')).
  split; [reflexivity | split; [reflexivity | ]].
  assert (Hc : label_confidence (label_of s) <= label_confidence (label_of s')).
  { destruct s as [g f d n], s' as [g' f' d' n']. simpl in Hg, Hf, Hd, Hn.
    unfold label_of. simpl.
    destruct g; [rewrite Hg by reflexivity; simpl; lia | ].
    destruct g'; [destruct f, d; simpl; repeat destruct (_ <=? _)%N;
                  repeat destruct (_ <? _)%N; simpl; lia | ].
    destruct f; [rewrite Hf by reflexivity | destruct f', d'; simpl;
                 repeat destruct (_ <=? _)%N; repeat destruct (_ <? _)%N; simpl; lia].
    destruct d; [rewrite Hd by reflexivity | destruct d'; simpl;
                 repeat destruct (_ <=? _)%N; repeat destruct (_ <? _)%N; simpl; lia].
    destruct (N.leb_spec 3 n); destruct (N.leb_spec 3 n');
      destruct (N.ltb_spec 0 n); destruct (N.ltb_spec 0 n'); simpl; lia. }
  split; [exact Hc | apply tierOf_monotone, Hc].
Qed.

Lemma more_evidence_never_lowers_trust_witness :
  evidence_le (mkSnapshot OFFLINE true ON_ROUTE 1) (mkSnapshot OFFLINE true ON_ROUTE 4)
  /\ exists c c' : Z,
       confidence_of (evaluate agent (mkSnapshot OFFLINE true ON_ROUTE 1)) = Some c
       /\ confidence_of (evaluate agent (mkSnapshot OFFLINE true ON_ROUTE 4)) = Some c'
       /\ c <= c'
       /\ tier_rank (tierOf c) <= tier_rank (tierOf c').
Proof.
  assert (H : evidence_le (mkSnapshot OFFLINE true ON_ROUTE 1)
                (mkSnapshot OFFLINE true ON_ROUTE 4)).
  { unfold evidence_le. simpl. repeat split; intros; (reflexivity || discriminate). }
  split; [exact H | ].
  apply (more_evidence_never_lowers_trust agent _ _ H).
Defined.

(** ** The verdict and the box that shows it *)

(** X4.  The colour of the box never contradicts the wording of the
    message: a message that starts "ERROR:" is shown in the error box and
    only such a message is; "CAUTION:" and "WARNING:" messages are exactly
    the ones in the warning box; the success box holds exactly the
    "SUCCESS:" message and the hardware-live one. *)
Theorem box_agrees_with_message :
  forall (self : BusTruthAgent) (hw face mob mesh : pyval)
         (c : Z) (label message : string),
    evaluate_location self hw face mob mesh = Return (c, label, message) ->
    (String.prefix "ERROR:" message = true <-> tierOf c = ERROR)
    /\ (String.prefix "CAUTION:" message = true \/ String.prefix "WARNING:" message = true
        <-> tierOf c = CAUTION)
    /\ (String.prefix "SUCCESS:" message = true \/ label = "HARDWARE LIVE"
        <-> tierOf c = POSITIVE).
Proof.
  intros self hw face mob mesh c label message H.
  apply returned_label in H. destruct H as [l Hl].
  unfold verdict_of in Hl. injection Hl as -> -> ->.
  destruct l; vm_compute; repeat split; intros;
    repeat match goal with
           | H : _ \/ _ |- _ => destruct H
           end;
    try discriminate; try reflexivity; try (left; reflexivity); try (right; reflexivity).
Qed.

Lemma box_agrees_with_message_witness :
  evaluate_location agent (PyStr "OFFLINE") (PyBool true) (PyStr "ON_ROUTE") (PyInt 0)
  = Return (45, "STATUS UNCERTAIN", "WARNING: Hardware down. Only driver mobile detected.")
  /\ (String.prefix "CAUTION:" "WARNING: Hardware down. Only driver mobile detected." = true
      \/ String.prefix "WARNING:" "WARNING: Hardware down. Only driver mobile detected." = true
      <-> tierOf 45 = CAUTION).
Proof.
  split; [reflexivity | ].
  apply (box_agrees_with_message agent
           (PyStr "OFFLINE") (PyBool true) (PyStr "ON_ROUTE") (PyInt 0)
           45 "STATUS UNCERTAIN" "WARNING: Hardware down. Only driver mobile detected.").
  reflexivity.
Defined.

(** X5.  Which box the inputs get, for any strings and any integer count:
    the error box exactly when the GPS is "OFFLINE" and the face is not
    verified or the mobile is not "ON_ROUTE"; the success box exactly when
    the GPS is not "OFFLINE", or the driver evidence holds and at least three
    riders corroborate; the warning box otherwise. *)
Theorem box_by_inputs :
  forall (self : BusTruthAgent) (hw : string) (face : bool) (mob : string) (n c : Z)
         (label message : string),
    evaluate_location self (PyStr hw) (PyBool face) (PyStr mob) (PyInt n)
    = Return (c, label, message) ->
    (tierOf c = ERROR
     <-> hw = "OFFLINE" /\ (face = false \/ mob <> "ON_ROUTE"))
    /\ (tierOf c = POSITIVE
        <-> hw <> "OFFLINE" \/ (face = true /\ mob = "ON_ROUTE" /\ 3 <= n))
    /\ (tierOf c = CAUTION
        <-> hw = "OFFLINE" /\ face = true /\ mob = "ON_ROUTE" /\ n < 3).
Proof.
  intros self hw face mob n c label message H.
  rewrite evaluate_location_observed in H. cbn [py_eq truthy as_int] in H.
  destruct (String.eqb_spec hw "OFFLINE") as [Ehw | Ehw];
    [destruct face; cbn [andb] in H;
     [destruct (String.eqb_spec mob "ON_ROUTE") as [Em | Em];
      [destruct (Z.leb_spec 3 n); [ | destruct (Z.ltb_spec 0 n)] | ] | ] | ];
    injection H as <- _ _; cbn [verdict_of label_confidence fst];
    repeat split; intros; try discriminate;
    intuition (try discriminate; try congruence; try lia).
Qed.

Lemma box_by_inputs_witness :
  evaluate_location agent (PyStr "OFFLINE") (PyBool true) (PyStr "ON_ROUTE") (PyInt (-2))
  = Return (45, "STATUS UNCERTAIN", "WARNING: Hardware down. Only driver mobile detected.")
  /\ (tierOf 45 = CAUTION
      <-> "OFFLINE" = "OFFLINE" /\ true = true /\ "ON_ROUTE" = "ON_ROUTE" /\ -2 < 3).
Proof.
  split; [reflexivity | ].
  apply (box_by_inputs agent "OFFLINE" true "ON_ROUTE" (-2) 45
           "STATUS UNCERTAIN" "WARNING: Hardware down. Only driver mobile detected.").
  reflexivity.
Defined.

(** X6.  The metric's delta is the confidence less 50.  It lies between -45
    and 50, and it is printed with a minus sign exactly for the verdicts
    STATUS UNCERTAIN and GHOST BUS ALERT: the warning box holds one verdict
    with a positive delta and one with a negative delta. *)
Theorem delta_sign :
  forall (self : BusTruthAgent) (hw face mob mesh : pyval)
         (c : Z) (label message : string),
    evaluate_location self hw face mob mesh = Return (c, label, message) ->
    -45 <= c - 50 <= 50
    /\ (String.prefix "-" (py_str_int (c - 50)) = true
        <-> label = "STATUS UNCERTAIN" \/ label = "GHOST BUS ALERT")
    /\ (label = "STATUS UNCERTAIN" \/ label = "GHOST BUS ALERT" <-> c < 50).
Proof.
  intros self hw face mob mesh c label message H.
  apply returned_label in H. destruct H as [l Hl].
  unfold verdict_of in Hl. injection Hl as -> -> ->.
  destruct l; simpl label_confidence; simpl label_text;
    (split; [lia | split; split; intros H;
                     try (vm_compute in H; discriminate H);
                     try (destruct H as [H | H]; discriminate H);
                     try lia;
                     try (vm_compute; reflexivity);
                     try (left; reflexivity); try (right; reflexivity)]).
Qed.

Lemma delta_sign_witness :
  evaluate_location agent (PyStr "OFFLINE") (PyBool true) (PyStr "ON_ROUTE") (PyInt 0)
  = Return (45, "STATUS UNCERTAIN", "WARNING: Hardware down. Only driver mobile detected.")
  /\ -45 <= 45 - 50 <= 50.
Proof.
  split; [reflexivity | ].
  apply (delta_sign agent (PyStr "OFFLINE") (PyBool true) (PyStr "ON_ROUTE") (PyInt 0)
           45 "STATUS UNCERTAIN" "WARNING: Hardware down. Only driver mobile detected.").
  reflexivity.
Defined.

(** ** A run of the dashboard *)

Section DashboardRuns.

Context {UploadedFile Image : Type}
        (Image_open : UploadedFile -> ending Image)
        (detectMultiScale : Image -> ending (list Rect)).

(** What a run renders once the face check has completed with [fa]. *)
Let rendered_after (w : Widgets UploadedFile) (fa : bool) : list ui :=
  let l := label_of (read_as (hw_status w) fa (driver_mob w) (passenger_mesh w)) in
  (page_head
   ++ match driver_img w with
      | Some _ => [ if fa then driver_verified_banner else driver_missing_banner ]
      | None => []
      end
   ++ [ st_metric "Agent Confidence Score"
          (py_str_int (label_confidence l) ++ "%")
          (py_str_int (label_confidence l - 50) ++ "% if hardware fails");
        box (tierOf (label_confidence l))
          ("**" ++ label_text l ++ "**: " ++ label_message l);
        st_map [404406] [-799959];
        st_header "📊 Multi-Modal Integrity";
        st_write "**Data Source Health:**";
        st_json (source_health w fa) ]
   ++ (if vibe_check w
       then [ st_spinner "Pinging active passenger devices...";
              time_sleep 1;
              st_info ("Mesh Check: " ++ py_str_int (passenger_mesh w)
                       ++ " devices confirmed at 40.4406, -79.9959.") ]
       else [])
   ++ [ st_markdown "---";
        st_caption "Product Note: This prototype demonstrates the Reasoning Agent's ability to maintain tracking when primary hardware fails." ])%list.

(** Everything a run renders, in order, and how it ends: an exception of the
    camera side ends it after the page head, and nothing else ends it
    early. *)
Lemma run_renders (w : Widgets UploadedFile) :
  run Image_open detectMultiScale w
  = match camera_ending Image_open detectMultiScale w with
    | Completed fa => (Completed tt, rendered_after w fa)
    | Aborted f => (Aborted f, page_head)
    end.
Proof.
  unfold rendered_after, run, dashboard, face_check, camera_ending.
  destruct w as [hw mob n img vibe].
  cbn [hw_status driver_mob passenger_mesh driver_img vibe_check].
  unfold bind_script, call, emit, lift, ret.
  destruct img as [file | ];
    [destruct (Image_open file) as [img | f]; cbn [app];
     [destruct (detect_driver_presence detectMultiScale img) as [[ | ] | f] | ] | ];
    cbn [app]; try reflexivity;
    rewrite typed_arguments_label;
    match goal with
    | |- context [label_of ?s] => generalize (label_of s)
    end;
    intros l; destruct l, vibe; reflexivity.
Qed.

Lemma camera_ending_face_active (w : Widgets UploadedFile) (fa : bool) :
  camera_ending Image_open detectMultiScale w = Completed fa ->
  face_active Image_open detectMultiScale w = fa.
Proof. intros H. unfold face_active. rewrite H. reflexivity. Qed.

Lemma face_active_camera_ending (w : Widgets UploadedFile) :
  face_active Image_open detectMultiScale w = true
  <-> camera_ending Image_open detectMultiScale w = Completed true.
Proof.
  unfold face_active.
  destruct (camera_ending Image_open detectMultiScale w) as [[ | ] | f];
    split; intros H; (reflexivity || discriminate H).
Qed.

Lemma detect_driver_presence_faces (img : Image) (b : bool) :
  detect_driver_presence detectMultiScale img = Completed b
  <-> exists faces, detectMultiScale img = Completed faces
                    /\ (b = true <-> faces <> []).
Proof.
  unfold detect_driver_presence.
  destruct (detectMultiScale img) as [faces | f].
  - split.
    + intros [= <-]. exists faces. split; [reflexivity | ].
      destruct faces; simpl; split; intros H;
        first [reflexivity | discriminate H | congruence].
    + intros (faces' & [= <-] & Hb). f_equal.
      destruct faces; simpl.
      * destruct b; [ | reflexivity].
        destruct Hb as [Hb _]. exfalso. apply (Hb eq_refl). reflexivity.
      * destruct b; [reflexivity | ].
        destruct Hb as [_ Hb]. symmetry. apply Hb. discriminate.
  - split; [discriminate | intros (faces & H & _); discriminate H].
Qed.

(** The face check ends with [True] exactly when a frame was taken, opened,
    and searched with at least one face found. *)
Lemma camera_ending_true (w : Widgets UploadedFile) :
  camera_ending Image_open detectMultiScale w = Completed true
  <-> exists file img faces,
        driver_img w = Some file /\ Image_open file = Completed img
        /\ detectMultiScale img = Completed faces /\ faces <> [].
Proof.
  unfold camera_ending. destruct (driver_img w) as [file | ].
  - destruct (Image_open file) as [img | f] eqn:Hopen.
    + rewrite detect_driver_presence_faces. split.
      * intros (faces & Hd & Hb). exists file, img, faces.
        split; [reflexivity | ]. split; [exact Hopen | ].
        split; [exact Hd | ]. now apply Hb.
      * intros (file' & img' & faces & [= <-] & Hopen' & Hd & Hne).
        rewrite Hopen in Hopen'. injection Hopen' as <-.
        exists faces. split; [exact Hd | ]. split; [intros _; exact Hne | reflexivity].
    + split; [discriminate | ].
      intros (file' & img' & faces & [= <-] & Hopen' & _).
      rewrite Hopen in Hopen'. discriminate Hopen'.
  - split; [discriminate | ].
    intros (file' & img' & faces & Hfile & _). discriminate Hfile.
Qed.

(** It ends with [False] on a frame exactly when the frame was opened and
    searched and no face was found. *)
Lemma camera_ending_false (w : Widgets UploadedFile) (file : UploadedFile) :
  driver_img w = Some file ->
  (camera_ending Image_open detectMultiScale w = Completed false
   <-> exists img, Image_open file = Completed img
                   /\ detectMultiScale img = Completed []).
Proof.
  intros Hfile. unfold camera_ending. rewrite Hfile.
  destruct (Image_open file) as [img | f].
  - rewrite detect_driver_presence_faces. split.
    + intros (faces & Hd & Hb). exists img. split; [reflexivity | ].
      destruct faces as [ | face faces]; [exact Hd | ].
      destruct Hb as [_ Hb]. discriminate Hb. discriminate.
    + intros (img' & [= <-] & Hd). exists []. split; [exact Hd | ].
      split; intros H; [discriminate H | exfalso; apply H; reflexivity].
  - split; [discriminate | intros (img & H & _); discriminate H].
Qed.

(** Case analysis of a membership in what a completed run rendered. *)
Ltac open_rendered H :=
  unfold rendered_after, page_head, driver_verified_banner, driver_missing_banner in H;
  cbv zeta in H.

Ltac rendered_cases H :=
  rewrite !in_app_iff in H; cbn [In] in H;
  revert H;
  match goal with
  | |- context [label_of ?s] => generalize (label_of s)
  end;
  let l := fresh "l" in
  intros l H; destruct l;
  repeat match goal with
         | H : context [vibe_check ?w] |- _ => destruct (vibe_check w)
         end;
  cbn in H;
  repeat match goal with
         | H : _ \/ _ |- _ => destruct H as [H | H]
         | H : False |- _ => destruct H
         end;
  try discriminate H.

Ltac head_cases H :=
  unfold page_head, driver_verified_banner, driver_missing_banner in H; cbn in H;
  repeat match goal with
         | H : _ \/ _ |- _ => destruct H as [H | H]
         | H : False |- _ => destruct H
         end;
  try discriminate H.

Lemma rendered_json (w : Widgets UploadedFile) (d : list (string * string)) :
  In (st_json d) (snd (run Image_open detectMultiScale w))
  <-> exists fa, camera_ending Image_open detectMultiScale w = Completed fa
                 /\ d = source_health w fa.
Proof.
  rewrite run_renders.
  destruct (camera_ending Image_open detectMultiScale w) as [fa | f]; cbn [snd].
  - split.
    + intros H. exists fa. split; [reflexivity | ].
      open_rendered H.
      destruct (driver_img w), fa; rendered_cases H;
        injection H as <-; reflexivity.
    + intros (fa' & [= <-] & ->). unfold rendered_after. cbv zeta.
      rewrite !in_app_iff. right. right. left. do 5 right. left. reflexivity.
  - split.
    + intros H. head_cases H.
    + intros (fa & H & _). discriminate H.
Qed.

Lemma rendered_verified_banner (w : Widgets UploadedFile) :
  In driver_verified_banner (snd (run Image_open detectMultiScale w))
  <-> camera_ending Image_open detectMultiScale w = Completed true.
Proof.
  rewrite run_renders.
  destruct (camera_ending Image_open detectMultiScale w) as [fa | f] eqn:Hc; cbn [snd].
  - destruct (driver_img w) as [file | ] eqn:Hi.
    + destruct fa.
      * split; [reflexivity | ]. intros _. unfold rendered_after. cbv zeta.
        rewrite Hi, !in_app_iff. right. left. left. reflexivity.
      * split; [ | discriminate]. intros H. open_rendered H. rewrite Hi in H. rendered_cases H.
    + unfold camera_ending in Hc. rewrite Hi in Hc. injection Hc as <-.
      split; [ | discriminate]. intros H. open_rendered H. rewrite Hi in H. rendered_cases H.
  - split; [ | discriminate]. intros H. head_cases H.
Qed.

Lemma rendered_missing_banner (w : Widgets UploadedFile) :
  In driver_missing_banner (snd (run Image_open detectMultiScale w))
  <-> driver_img w <> None
      /\ camera_ending Image_open detectMultiScale w = Completed false.
Proof.
  rewrite run_renders.
  destruct (camera_ending Image_open detectMultiScale w) as [fa | f] eqn:Hc; cbn [snd].
  - destruct (driver_img w) as [file | ] eqn:Hi.
    + destruct fa.
      * split; [ | intros [_ H]; discriminate H].
        intros H. open_rendered H. rewrite Hi in H. rendered_cases H.
      * split; [intros _; split; [discriminate | reflexivity] | ].
        intros _. unfold rendered_after. cbv zeta.
        rewrite Hi, !in_app_iff. right. left. left. reflexivity.
    + split; [ | intros [H _]; now contradiction H].
      intros H. open_rendered H. rewrite Hi in H. rendered_cases H.
  - split; [ | intros [_ H]; discriminate H]. intros H. head_cases H.
Qed.

End DashboardRuns.

(** X7.  A run of the dashboard ends early in two ways only, both on the
    camera side: [Image.open] raises on the frame, or one of the library
    calls of [detect_driver_presence] raises.  The exception then ends the
    run after the page head, before any verdict is rendered.  In every other
    run, whatever the two select boxes and the slider deliver, the agent
    returns a verdict and the run completes, rendering the metric with that
    confidence and its delta and the verdict in the box of its tier. *)
Theorem run_aborts_only_in_camera :
  forall (UploadedFile Image : Type)
         (Image_open : UploadedFile -> ending Image)
         (detectMultiScale : Image -> ending (list Rect))
         (w : Widgets UploadedFile),
    (forall file f,
        driver_img w = Some file -> Image_open file = Aborted f ->
        run Image_open detectMultiScale w = (Aborted f, page_head))
    /\ (forall file img f,
          driver_img w = Some file -> Image_open file = Completed img ->
          detectMultiScale img = Aborted f ->
          run Image_open detectMultiScale w = (Aborted f, page_head))
    /\ (driver_img w = None
        \/ (exists file img faces,
               driver_img w = Some file /\ Image_open file = Completed img
               /\ detectMultiScale img = Completed faces) ->
        fst (run Image_open detectMultiScale w) = Completed tt
        /\ exists (c : Z) (label message : string),
             evaluate_location agent (PyStr (hw_status w))
               (PyBool (face_active Image_open detectMultiScale w))
               (PyStr (driver_mob w)) (PyInt (passenger_mesh w))
             = Return (c, label, message)
             /\ In (st_metric "Agent Confidence Score" (py_str_int c ++ "%")
                      (py_str_int (c - 50) ++ "% if hardware fails"))
                   (snd (run Image_open detectMultiScale w))
             /\ In (box (tierOf c) ("**" ++ label ++ "**: " ++ message))
                   (snd (run Image_open detectMultiScale w))).
Proof.
  intros UploadedFile Image Image_open detectMultiScale w. split; [ | split].
  - intros file f Hfile Hopen. rewrite run_renders.
    unfold camera_ending. rewrite Hfile, Hopen. reflexivity.
  - intros file img f Hfile Hopen Hdetect. rewrite run_renders.
    unfold camera_ending, detect_driver_presence.
    rewrite Hfile, Hopen, Hdetect. reflexivity.
  - intros Hcam.
    assert (Hc : exists fa,
               camera_ending Image_open detectMultiScale w = Completed fa).
    { unfold camera_ending, detect_driver_presence.
      destruct Hcam as [Hnone | (file & img & faces & Hfile & Hopen & Hdetect)].
      - rewrite Hnone. eexists. reflexivity.
      - rewrite Hfile, Hopen, Hdetect. eexists. reflexivity. }
    destruct Hc as [fa Hc].
    rewrite run_renders, (camera_ending_face_active _ _ _ _ Hc), Hc.
    split; [reflexivity | ].
    rewrite typed_arguments_label. cbv zeta.
    match goal with
    | |- context [label_of ?s] => generalize (label_of s)
    end.
    intros l. exists (label_confidence l), (label_text l), (label_message l).
    split; [reflexivity | ]. cbn [snd]. rewrite !in_app_iff.
    split; right; right; left; [left | right; left]; reflexivity.
Qed.

Lemma run_aborts_only_in_camera_witness :
  driver_img (mkWidgets "OFFLINE" "ON_ROUTE" 5 (Some "frame.jpg") false)
  = Some "frame.jpg"
  /\ (fun _ : string => Aborted (A := unit) (LibraryError "UnidentifiedImageError"))
       "frame.jpg"
     = Aborted (LibraryError "UnidentifiedImageError")
  /\ run (fun _ : string => Aborted (A := unit) (LibraryError "UnidentifiedImageError"))
         (fun _ : unit => Completed [(10, 10, 64, 64)])
         (mkWidgets "OFFLINE" "ON_ROUTE" 5 (Some "frame.jpg") false)
     = (Aborted (LibraryError "UnidentifiedImageError"), page_head).
Proof.
  split; [reflexivity | ]. split; [reflexivity | ].
  apply (proj1 (run_aborts_only_in_camera string unit
                  (fun _ : string => Aborted (LibraryError "UnidentifiedImageError"))
                  (fun _ : unit => Completed [(10, 10, 64, 64)])
                  (mkWidgets "OFFLINE" "ON_ROUTE" 5 (Some "frame.jpg") false))
           "frame.jpg" (LibraryError "UnidentifiedImageError"));
    reflexivity.
Defined.

(** X8.  Without a face nothing else counts once the GPS is offline: when no
    frame was taken, or the frame was opened and searched and no face was
    found in it, and the GPS is "OFFLINE", the run shows the GHOST BUS ALERT
    in the error box with confidence 5%, whatever the mobile status and the
    rider slider say, and never the banner of a verified driver. *)
Theorem unseen_driver_offline_is_ghost :
  forall (UploadedFile Image : Type)
         (Image_open : UploadedFile -> ending Image)
         (detectMultiScale : Image -> ending (list Rect))
         (w : Widgets UploadedFile),
    driver_img w = None
    \/ (exists file img,
           driver_img w = Some file /\ Image_open file = Completed img
           /\ detectMultiScale img = Completed []) ->
    hw_status w = "OFFLINE" ->
    In (st_error "**GHOST BUS ALERT**: ERROR: No reliable signal from bus, driver, or mesh. Likely out of service.")
       (snd (run Image_open detectMultiScale w))
    /\ In (st_metric "Agent Confidence Score" "5%" "-45% if hardware fails")
          (snd (run Image_open detectMultiScale w))
    /\ ~ In driver_verified_banner (snd (run Image_open detectMultiScale w)).
Proof.
  intros UploadedFile Image Image_open detectMultiScale w Hface Hhw.
  assert (Hc : camera_ending Image_open detectMultiScale w = Completed false).
  { unfold camera_ending, detect_driver_presence.
    destruct Hface as [Hnone | (file & img & Hfile & Hopen & Hdetect)].
    - rewrite Hnone. reflexivity.
    - rewrite Hfile, Hopen, Hdetect. reflexivity. }
  split; [ | split].
  - rewrite run_renders, Hc, Hhw. cbn [snd]. cbv zeta. rewrite !in_app_iff.
    right. right. left. right. left. reflexivity.
  - rewrite run_renders, Hc, Hhw. cbn [snd]. cbv zeta. rewrite !in_app_iff.
    right. right. left. left. reflexivity.
  - rewrite rendered_verified_banner, Hc. discriminate.
Qed.

Lemma unseen_driver_offline_is_ghost_witness :
  (driver_img (mkWidgets "OFFLINE" "ON_ROUTE" 20 (Some tt) false) = None
   \/ exists (file : unit) (img : unit),
        driver_img (mkWidgets "OFFLINE" "ON_ROUTE" 20 (Some tt) false) = Some file
        /\ (fun _ : unit => Completed tt) file = Completed img
        /\ (fun _ : unit => Completed (@nil Rect)) img = Completed [])
  /\ hw_status (mkWidgets "OFFLINE" "ON_ROUTE" 20 (Some tt) false) = "OFFLINE"
  /\ In (st_metric "Agent Confidence Score" "5%" "-45% if hardware fails")
        (snd (run (fun _ : unit => Completed tt)
                (fun _ : unit => Completed (@nil Rect))
                (mkWidgets "OFFLINE" "ON_ROUTE" 20 (Some tt) false))).
Proof.
  assert (H : driver_img (mkWidgets "OFFLINE" "ON_ROUTE" 20 (Some tt) false) = None
              \/ exists (file : unit) (img : unit),
                   driver_img (mkWidgets "OFFLINE" "ON_ROUTE" 20 (Some tt) false)
                   = Some file
                   /\ (fun _ : unit => Completed tt) file = Completed img
                   /\ (fun _ : unit => Completed (@nil Rect)) img = Completed []).
  { right. exists tt, tt. repeat split. }
  split; [exact H | ]. split; [reflexivity | ].
  apply (unseen_driver_offline_is_ghost unit unit
           (fun _ : unit => Completed tt) (fun _ : unit => Completed (@nil Rect))
           (mkWidgets "OFFLINE" "ON_ROUTE" 20 (Some tt) false) H).
  reflexivity.
Defined.

(** X9.  The face banners and the Driver_Vision line of the health panel
    tell the same story: the banner of a verified driver is rendered exactly
    when a frame was taken and opened and the cascade found a face in it, the
    warning banner exactly when a frame was taken and opened and no face was
    found, and the panel reads "Verified" exactly when the verified banner is
    shown. *)
Theorem face_banner_and_panel_agree :
  forall (UploadedFile Image : Type)
         (Image_open : UploadedFile -> ending Image)
         (detectMultiScale : Image -> ending (list Rect))
         (w : Widgets UploadedFile),
    (In driver_verified_banner (snd (run Image_open detectMultiScale w))
     <-> exists file img faces,
           driver_img w = Some file /\ Image_open file = Completed img
           /\ detectMultiScale img = Completed faces /\ faces <> [])
    /\ (In driver_missing_banner (snd (run Image_open detectMultiScale w))
        <-> exists file img,
              driver_img w = Some file /\ Image_open file = Completed img
              /\ detectMultiScale img = Completed [])
    /\ (forall d : list (string * string),
          In (st_json d) (snd (run Image_open detectMultiScale w)) ->
          (dict_get "Driver_Vision" d = Some "Verified"
           <-> In driver_verified_banner (snd (run Image_open detectMultiScale w)))).
Proof.
  intros UploadedFile Image Image_open detectMultiScale w. split; [ | split].
  - rewrite rendered_verified_banner. apply camera_ending_true.
  - rewrite rendered_missing_banner. split.
    + intros [Hne Hc]. destruct (driver_img w) as [file | ] eqn:Hfile;
        [ | now contradiction Hne].
      apply (camera_ending_false Image_open detectMultiScale w file Hfile) in Hc.
      destruct Hc as (img & Hopen & Hdetect). now exists file, img.
    + intros (file & img & Hfile & Hopen & Hdetect).
      split; [rewrite Hfile; discriminate | ].
      apply (camera_ending_false Image_open detectMultiScale w file Hfile).
      now exists img.
  - intros d Hd. apply rendered_json in Hd. destruct Hd as (fa & Hc & ->).
    rewrite rendered_verified_banner, Hc.
    destruct fa; cbn; split; intros H; (reflexivity || discriminate H).
Qed.

Lemma face_banner_and_panel_agree_witness :
  In (st_json (source_health (mkWidgets "OFFLINE" "ON_ROUTE" 3 (Some tt) false) true))
     (snd (run (fun _ : unit => Completed tt)
             (fun _ : unit => Completed [(10, 10, 64, 64)])
             (mkWidgets "OFFLINE" "ON_ROUTE" 3 (Some tt) false)))
  /\ (dict_get "Driver_Vision"
        (source_health (mkWidgets "OFFLINE" "ON_ROUTE" 3 (Some tt) false) true)
      = Some "Verified"
      <-> In driver_verified_banner
            (snd (run (fun _ : unit => Completed tt)
                    (fun _ : unit => Completed [(10, 10, 64, 64)])
                    (mkWidgets "OFFLINE" "ON_ROUTE" 3 (Some tt) false)))).
Proof.
  assert (H : In (st_json (source_health (mkWidgets "OFFLINE" "ON_ROUTE" 3 (Some tt) false) true))
                 (snd (run (fun _ : unit => Completed tt)
                         (fun _ : unit => Completed [(10, 10, 64, 64)])
                         (mkWidgets "OFFLINE" "ON_ROUTE" 3 (Some tt) false)))).
  { apply rendered_json. exists true. split; reflexivity. }
  split; [exact H | ].
  apply (face_banner_and_panel_agree unit unit
           (fun _ : unit => Completed tt)
           (fun _ : unit => Completed [(10, 10, 64, 64)])
           (mkWidgets "OFFLINE" "ON_ROUTE" 3 (Some tt) false)).
  exact H.
Defined.

(** X10.  The Hardware_GPS line of the health panel tests for "LIVE" while
    the agent tests for "OFFLINE".  A line that reads "Healthy" always comes
    with the HARDWARE LIVE verdict at 100; the line reads "FAILED" beside a
    HARDWARE LIVE verdict exactly when the status is neither "LIVE" nor
    "OFFLINE", so on the two values the select box offers panel and verdict
    agree. *)
Theorem hardware_line_and_verdict :
  forall (UploadedFile Image : Type)
         (Image_open : UploadedFile -> ending Image)
         (detectMultiScale : Image -> ending (list Rect))
         (w : Widgets UploadedFile)
         (d : list (string * string)) (c : Z) (label message : string),
    In (st_json d) (snd (run Image_open detectMultiScale w)) ->
    evaluate_location agent (PyStr (hw_status w))
      (PyBool (face_active Image_open detectMultiScale w))
      (PyStr (driver_mob w)) (PyInt (passenger_mesh w))
    = Return (c, label, message) ->
    (dict_get "Hardware_GPS" d = Some "Healthy" -> c = 100 /\ label = "HARDWARE LIVE")
    /\ (dict_get "Hardware_GPS" d = Some "FAILED" /\ label = "HARDWARE LIVE"
        <-> hw_status w <> "LIVE" /\ hw_status w <> "OFFLINE").
Proof.
  intros UploadedFile Image Image_open detectMultiScale w d c label message Hd Hv.
  apply rendered_json in Hd. destruct Hd as (fa & Hc & ->).
  rewrite (camera_ending_face_active _ _ _ _ Hc) in Hv.
  rewrite evaluate_location_observed in Hv. cbn [py_eq truthy as_int] in Hv.
  unfold source_health. cbn [dict_get String.eqb Ascii.eqb Bool.eqb].
  destruct (String.eqb_spec (hw_status w) "LIVE") as [El | El].
  - rewrite El in Hv. cbn in Hv. injection Hv as <- <- _.
    split; [intros _; split; reflexivity | ].
    split; [intros [H _]; discriminate H | intros [H _]; contradiction].
  - split; [intros H; discriminate H | ].
    destruct (String.eqb_spec (hw_status w) "OFFLINE") as [Eo | Eo].
    + split; [ | intros [_ H]; contradiction].
      intros [_ Hl]. exfalso.
      destruct (fa && (driver_mob w =? "ON_ROUTE")%string);
        [destruct (3 <=? passenger_mesh w); [ | destruct (0 <? passenger_mesh w)] | ];
        injection Hv as _ <- _; discriminate Hl.
    + injection Hv as <- <- _.
      split; [intros _; split; assumption | intros _; split; reflexivity].
Qed.

Lemma hardware_line_and_verdict_witness :
  In (st_json (source_health (mkWidgets (UploadedFile := unit) "PARKED" "UNKNOWN" 0 None false) false))
     (snd (run (fun _ : unit => Completed tt) (fun _ : unit => Completed (@nil Rect))
             (mkWidgets "PARKED" "UNKNOWN" 0 None false)))
  /\ evaluate_location agent (PyStr "PARKED") (PyBool false) (PyStr "UNKNOWN") (PyInt 0)
     = Return (100, "HARDWARE LIVE", "Bus is actively broadcasting GPS signal.")
  /\ (dict_get "Hardware_GPS"
        (source_health (mkWidgets (UploadedFile := unit) "PARKED" "UNKNOWN" 0 None false) false)
      = Some "FAILED" /\ "HARDWARE LIVE" = "HARDWARE LIVE"
      <-> "PARKED" <> "LIVE" /\ "PARKED" <> "OFFLINE").
Proof.
  assert (H : In (st_json (source_health (mkWidgets (UploadedFile := unit) "PARKED" "UNKNOWN" 0 None false) false))
                 (snd (run (fun _ : unit => Completed tt)
                         (fun _ : unit => Completed (@nil Rect))
                         (mkWidgets "PARKED" "UNKNOWN" 0 None false)))).
  { apply rendered_json. exists false. split; reflexivity. }
  split; [exact H | ]. split; [reflexivity | ].
  apply (hardware_line_and_verdict unit unit
           (fun _ : unit => Completed tt) (fun _ : unit => Completed (@nil Rect))
           (mkWidgets "PARKED" "UNKNOWN" 0 None false) _ 100
           "HARDWARE LIVE" "Bus is actively broadcasting GPS signal." H).
  reflexivity.
Defined.

(** X11.  With the GPS "OFFLINE" the health panel explains the alert: the
    verdict is GHOST BUS ALERT exactly when the panel shows the driver's
    mobile as "Stale" or the driver's vision as "Incomplete". *)
Theorem panel_explains_ghost :
  forall (UploadedFile Image : Type)
         (Image_open : UploadedFile -> ending Image)
         (detectMultiScale : Image -> ending (list Rect))
         (w : Widgets UploadedFile)
         (d : list (string * string)) (c : Z) (label message : string),
    In (st_json d) (snd (run Image_open detectMultiScale w)) ->
    evaluate_location agent (PyStr (hw_status w))
      (PyBool (face_active Image_open detectMultiScale w))
      (PyStr (driver_mob w)) (PyInt (passenger_mesh w))
    = Return (c, label, message) ->
    hw_status w = "OFFLINE" ->
    (label = "GHOST BUS ALERT"
     <-> dict_get "Driver_Mobile" d = Some "Stale"
         \/ dict_get "Driver_Vision" d = Some "Incomplete").
Proof.
  intros UploadedFile Image Image_open detectMultiScale w d c label message Hd Hv Hhw.
  apply rendered_json in Hd. destruct Hd as (fa & Hc & ->).
  rewrite (camera_ending_face_active _ _ _ _ Hc) in Hv.
  rewrite evaluate_location_observed in Hv. cbn [py_eq truthy as_int] in Hv.
  rewrite Hhw in Hv. cbn [String.eqb Ascii.eqb Bool.eqb] in Hv.
  unfold source_health. cbn [dict_get String.eqb Ascii.eqb Bool.eqb].
  destruct fa;
    destruct (driver_mob w =? "ON_ROUTE")%string; cbn [andb] in Hv;
    try (destruct (3 <=? passenger_mesh w); [ | destruct (0 <? passenger_mesh w)]);
    injection Hv as _ <- _; cbn;
    (split; [intros H; try discriminate H; auto | intros [H | H]; try discriminate H; reflexivity]).
Qed.

Lemma panel_explains_ghost_witness :
  In (st_json (source_health (mkWidgets "OFFLINE" "UNKNOWN" 12 (Some tt) false) true))
     (snd (run (fun _ : unit => Completed tt)
             (fun _ : unit => Completed [(10, 10, 64, 64)])
             (mkWidgets "OFFLINE" "UNKNOWN" 12 (Some tt) false)))
  /\ evaluate_location agent (PyStr "OFFLINE") (PyBool true) (PyStr "UNKNOWN") (PyInt 12)
     = Return (5, "GHOST BUS ALERT",
               "ERROR: No reliable signal from bus, driver, or mesh. Likely out of service.")
  /\ ("GHOST BUS ALERT" = "GHOST BUS ALERT"
      <-> dict_get "Driver_Mobile"
            (source_health (mkWidgets "OFFLINE" "UNKNOWN" 12 (Some tt) false) true)
          = Some "Stale"
          \/ dict_get "Driver_Vision"
               (source_health (mkWidgets "OFFLINE" "UNKNOWN" 12 (Some tt) false) true)
             = Some "Incomplete").
Proof.
  assert (H : In (st_json (source_health (mkWidgets "OFFLINE" "UNKNOWN" 12 (Some tt) false) true))
                 (snd (run (fun _ : unit => Completed tt)
                         (fun _ : unit => Completed [(10, 10, 64, 64)])
                         (mkWidgets "OFFLINE" "UNKNOWN" 12 (Some tt) false)))).
  { apply rendered_json. exists true. split; reflexivity. }
  split; [exact H | ]. split; [reflexivity | ].
  apply (panel_explains_ghost unit unit
           (fun _ : unit => Completed tt)
           (fun _ : unit => Completed [(10, 10, 64, 64)])
           (mkWidgets "OFFLINE" "UNKNOWN" 12 (Some tt) false) _ 5
           "GHOST BUS ALERT"
           "ERROR: No reliable signal from bus, driver, or mesh. Likely out of service."
           H); reflexivity.
Defined.

(** X12.  Riders alone neither raise nor lift an alert.  For fixed GPS
    status, face flag and mobile status, two integer rider counts, negative
    ones included, get verdicts that are both GHOST BUS ALERT or neither,
    both HARDWARE LIVE or neither, and the larger count never gets the lower
    confidence. *)
Theorem riders_alone_change_no_alert :
  forall (self : BusTruthAgent) (hw : string) (face : bool) (mob : string) (n n' : Z)
         (c c' : Z) (label message label' message' : string),
    evaluate_location self (PyStr hw) (PyBool face) (PyStr mob) (PyInt n)
    = Return (c, label, message) ->
    evaluate_location self (PyStr hw) (PyBool face) (PyStr mob) (PyInt n')
    = Return (c', label', message') ->
    (label = "GHOST BUS ALERT" <-> label' = "GHOST BUS ALERT")
    /\ (label = "HARDWARE LIVE" <-> label' = "HARDWARE LIVE")
    /\ (n <= n' -> c <= c').
Proof.
  intros self hw face mob n n' c c' label message label' message' H H'.
  rewrite evaluate_location_observed in H, H'. cbn [py_eq truthy as_int] in H, H'.
  destruct (hw =? "OFFLINE")%string;
    [destruct (face && (mob =? "ON_ROUTE")%string) | ];
    [destruct (Z.leb_spec 3 n); [ | destruct (Z.ltb_spec 0 n)];
     (destruct (Z.leb_spec 3 n'); [ | destruct (Z.ltb_spec 0 n')]) | | ];
    injection H as <- <- _; injection H' as <- <- _; cbn;
    repeat split; intros; try discriminate; try reflexivity; try lia.
Qed.

Lemma riders_alone_change_no_alert_witness :
  evaluate_location agent (PyStr "OFFLINE") (PyBool true) (PyStr "ON_ROUTE") (PyInt (-3))
  = Return (45, "STATUS UNCERTAIN", "WARNING: Hardware down. Only driver mobile detected.")
  /\ evaluate_location agent (PyStr "OFFLINE") (PyBool true) (PyStr "ON_ROUTE") (PyInt 9)
     = Return (98, "VERIFIED BY RIDER MESH",
               "SUCCESS: High-confidence location via passenger & driver mesh.")
  /\ (-3 <= 9 -> 45 <= 98).
Proof.
  split; [reflexivity | ]. split; [reflexivity | ].
  apply (riders_alone_change_no_alert agent "OFFLINE" true "ON_ROUTE" (-3) 9 45 98
           "STATUS UNCERTAIN" "WARNING: Hardware down. Only driver mobile detected."
           "VERIFIED BY RIDER MESH"
           "SUCCESS: High-confidence location via passenger & driver mesh.");
    reflexivity.
Defined.
